(** * Carla: the macOS bundle script [data/macos/bundle.py]

    The script reads the environment variable [SCRIPT_NAME], builds two
    option dictionaries and hands them, together with one [Executable], to
    cx_Freeze's [setup].  This file embeds the script as a function from the
    process environment to the keyword arguments of that [setup] call, over
    a small fragment of Python values, and proves the configuration
    properties stated for it. *)

From Stdlib Require Import Ascii String.
From stdpp Require Import base option strings list gmap fin_maps.

Open Scope string_scope.

(** ** The Python fragment *)

(** Values the script builds or reads: [None], booleans, strings and lists.
    A string is the sequence of its bytes. *)
#[warnings="-register-all"]
Inductive pyval : Type :=
| PyNone
| PyBool (b : bool)
| PyStr (s : string)
| PyList (l : list pyval).

(** Exceptions the operators of the fragment raise. *)
Inductive pyexc : Type :=
| TypeError (msg : string)
| ValueError (msg : string).

(** Outcome of evaluating an expression: a value, a raised exception, or
    [Unsupported] when the evaluation needs a part of Python that the
    fragment leaves out (the [repr] of a list, a conversion other than
    [%s] and [%%]). *)
Inductive result (A : Type) : Type :=
| Ok (a : A)
| Raise (e : pyexc)
| Unsupported.

Arguments Ok {A} a.
Arguments Raise {A} e.
Arguments Unsupported {A}.

#[global] Instance result_ret : MRet result := fun A a => Ok a.

#[global] Instance result_bind : MBind result := fun A B f r =>
  match r with
  | Ok a => f a
  | Raise e => Raise e
  | Unsupported => Unsupported
  end.

(** [x == y] on the fragment. *)
Fixpoint py_eq (x y : pyval) {struct x} : bool :=
  match x, y with
  | PyNone, PyNone => true
  | PyBool a, PyBool b => Bool.eqb a b
  | PyStr s, PyStr t => String.eqb s t
  | PyList l, PyList m =>
      (fix all2 (l : list pyval) (m : list pyval) {struct l} : bool :=
         match l, m with
         | [], [] => true
         | a :: l', b :: m' => py_eq a b && all2 l' m'
         | _, _ => false
         end) l m
  | _, _ => false
  end.

(** [x in t] for a tuple [t]: some element equals [x]. *)
Definition py_in (x : pyval) (t : list pyval) : bool :=
  existsb (fun e => py_eq x e) t.

(** [str(x)]. *)
Definition py_str (x : pyval) : result string :=
  match x with
  | PyNone => Ok "None"
  | PyBool true => Ok "True"
  | PyBool false => Ok "False"
  | PyStr s => Ok s
  | PyList _ => Unsupported
  end.

(** The scan of a format string by the [%] operator.  [arg] is the value on
    the right of [%] while no conversion has used it yet; the fragment has
    no tuple, so that value is the only argument.  At the end of the format
    an argument left unused is an error, unless it supports subscripting
    the way a mapping does, which a list does. *)
Fixpoint format_loop (fmt : string) (arg : option pyval) {struct fmt}
  : result string :=
  match fmt with
  | "" =>
      match arg with
      | None | Some (PyList _) => Ok ""
      | Some _ =>
          Raise (TypeError "not all arguments converted during string formatting")
      end
  | String c rest =>
      if Ascii.eqb c "%"%char then
        match rest with
        | "" => Raise (ValueError "incomplete format")
        | String d rest' =>
            if Ascii.eqb d "%"%char then
              s ← format_loop rest' arg; Ok (String "%"%char s)
            else if Ascii.eqb d "s"%char then
              match arg with
              | None => Raise (TypeError "not enough arguments for format string")
              | Some v =>
                  t ← py_str v; s ← format_loop rest' None; Ok (t ++ s)
              end
            else Unsupported
        end
      else s ← format_loop rest arg; Ok (String c s)
  end.

(** [fmt % x]. *)
Definition py_mod (fmt : string) (x : pyval) : result string :=
  format_loop fmt (Some x).

(** [os.getenv(key)]: the value of the variable, [None] when it is unset. *)
Definition getenv (environ : gmap string string) (key : string) : pyval :=
  match environ !! key with
  | Some v => PyStr v
  | None => PyNone
  end.

(** ** cx_Freeze's interface *)

(** [Executable(script)]: the object records the path it is built from. *)
Inductive executable : Type :=
| Executable (script : string).

(** The keyword arguments of one [setup] call. *)
Record setup_kwargs : Type := {
  kw_name : string;
  kw_version : pyval;
  kw_description : string;
  kw_options : gmap string (gmap string pyval);
  kw_executables : list executable
}.

(** ** The script *)

(** [SCRIPT_NAME = getenv("SCRIPT_NAME")] *)
Definition SCRIPT_NAME (environ : gmap string string) : pyval :=
  getenv environ "SCRIPT_NAME".

(** The [options] dictionary literal. *)
Definition options : gmap string pyval :=
  {[ "zip_include_packages" := PyList [PyStr "*"];
     "zip_exclude_packages" := PyList [PyStr "PyQt5"];
     "replace_paths" := PyList [PyList [PyStr "*"; PyStr "@executable_path/"]];
     "optimize" := PyBool true ]}.

(** [boptions] once the [if] statement has run: the dictionary literal,
    with the item assignment of the branch when the branch is taken. *)
Definition boptions (environ : gmap string string)
  : result (gmap string pyval) :=
  let boptions : gmap string pyval :=
    {[ "iconfile" := PyStr "./resources/ico/carla.icns" ]} in
  if py_in (SCRIPT_NAME environ) [PyStr "Carla"; PyStr "Carla-Control"] then
    path ← py_mod "./data/macos/%s_Info.plist" (SCRIPT_NAME environ);
    Ok (<["custom_info_plist" := PyStr path]> boptions)
  else Ok boptions.

Section Bundle.

(** [from carla_host import VERSION]: the module is not part of the
    script, its constant is a parameter. *)
Variable VERSION : pyval.

(** Everything up to the [setup] call: the arguments the call receives,
    evaluated in the order they are written. *)
Definition setup_args (environ : gmap string string)
  : result setup_kwargs :=
  boptions ← boptions environ;
  script ← py_mod "./source/frontend/%s.pyw" (SCRIPT_NAME environ);
  Ok {| kw_name := "Carla";
        kw_version := VERSION;
        kw_description := "Carla Plugin Host";
        kw_options := {[ "build_exe" := options; "bdist_mac" := boptions ]};
        kw_executables := [Executable script] |}.

(** cx_Freeze's [setup], the packaging tool itself. *)
Variable setup : setup_kwargs → result ().

(** One run of the script. *)
Definition bundle (environ : gmap string string) : result () :=
  kwargs ← setup_args environ;
  setup kwargs.

End Bundle.

(** A string without conversion specifier. *)
Fixpoint no_percent (s : string) : bool :=
  match s with
  | "" => true
  | String c rest => negb (Ascii.eqb c "%"%char) && no_percent rest
  end.

(** ** The [%] operator on format strings with one [%s] *)

Lemma result_bind_Ok {A B} (f : A → result B) (a : A) : Ok a ≫= f = f a.
Proof. reflexivity. Qed.

Lemma append_empty (s : string) : "" ++ s = s.
Proof. reflexivity. Qed.

Lemma append_String (c : ascii) (s t : string) :
  String c s ++ t = String c (s ++ t).
Proof. reflexivity. Qed.

Lemma append_empty_r (s : string) : s ++ "" = s.
Proof.
  induction s as [|c s IH]; [reflexivity|].
  rewrite append_String, IH. reflexivity.
Qed.

Lemma format_loop_literal (pre rest : string) (arg : option pyval) :
  no_percent pre = true →
  format_loop (pre ++ rest) arg = s ← format_loop rest arg; Ok (pre ++ s).
Proof.
  induction pre as [|c pre IH]; intros Hpre.
  - rewrite append_empty. destruct (format_loop rest arg); reflexivity.
  - cbn [no_percent] in Hpre. apply andb_prop in Hpre as [Hc Hpre].
    apply negb_true_iff in Hc.
    rewrite append_String. cbn [format_loop]. rewrite Hc, (IH Hpre).
    destruct (format_loop rest arg); reflexivity.
Qed.

Lemma format_loop_plain (s : string) :
  no_percent s = true → format_loop s None = Ok s.
Proof.
  induction s as [|c s IH]; intros Hs; [reflexivity|].
  cbn [no_percent] in Hs. apply andb_prop in Hs as [Hc Hs].
  apply negb_true_iff in Hc.
  cbn [format_loop]. rewrite Hc, (IH Hs). reflexivity.
Qed.

Lemma py_mod_one_s (pre suf : string) (x : pyval) :
  no_percent pre = true → no_percent suf = true →
  py_mod (pre ++ "%s" ++ suf) x = t ← py_str x; Ok (pre ++ t ++ suf).
Proof.
  intros Hpre Hsuf. unfold py_mod.
  rewrite (format_loop_literal pre _ _ Hpre).
  rewrite !append_String, append_empty.
  cbn [format_loop Ascii.eqb Bool.eqb].
  rewrite (format_loop_plain suf Hsuf).
  destruct (py_str x); reflexivity.
Qed.

(** A format without conversion rejects an argument that is not a list. *)
Lemma py_mod_no_conversion (fmt : string) (x : pyval) :
  no_percent fmt = true →
  py_mod fmt x =
    match x with
    | PyList _ => Ok fmt
    | _ =>
        Raise (TypeError "not all arguments converted during string formatting")
    end.
Proof.
  intros Hfmt. unfold py_mod.
  rewrite <- (append_empty_r fmt) at 1.
  rewrite (format_loop_literal fmt "" _ Hfmt).
  destruct x; cbn [format_loop]; rewrite ?result_bind_Ok, ?append_empty_r;
    reflexivity.
Qed.

(** ** The script's globals *)

Lemma SCRIPT_NAME_set (environ : gmap string string) (v : string) :
  environ !! "SCRIPT_NAME" = Some v → SCRIPT_NAME environ = PyStr v.
Proof. intros H. unfold SCRIPT_NAME, getenv. rewrite H. reflexivity. Qed.

Lemma SCRIPT_NAME_unset (environ : gmap string string) :
  environ !! "SCRIPT_NAME" = None → SCRIPT_NAME environ = PyNone.
Proof. intros H. unfold SCRIPT_NAME, getenv. rewrite H. reflexivity. Qed.

(** The test of the [if] statement holds for the two names only. *)
Lemma py_in_names (environ : gmap string string) :
  py_in (SCRIPT_NAME environ) [PyStr "Carla"; PyStr "Carla-Control"] = true ↔
  environ !! "SCRIPT_NAME" = Some "Carla" ∨
  environ !! "SCRIPT_NAME" = Some "Carla-Control".
Proof.
  unfold SCRIPT_NAME, getenv, py_in.
  destruct (environ !! "SCRIPT_NAME") as [v|]; cbn [existsb py_eq].
  - rewrite orb_false_r, orb_true_iff, !String.eqb_eq.
    split; [intros [->| ->]; auto | intros [[= ->]|[= ->]]; auto].
  - split; [discriminate | intros [?|?]; discriminate].
Qed.

(** The path of the frontend script, whatever the variable holds. *)
Lemma script_path (environ : gmap string string) :
  py_mod "./source/frontend/%s.pyw" (SCRIPT_NAME environ) =
  Ok ("./source/frontend/" ++
      match environ !! "SCRIPT_NAME" with Some v => v | None => "None" end ++
      ".pyw").
Proof.
  etrans; [apply (py_mod_one_s "./source/frontend/" ".pyw"); reflexivity|].
  unfold SCRIPT_NAME, getenv.
  destruct (environ !! "SCRIPT_NAME"); reflexivity.
Qed.

(** The branch taken: one item is added to the literal. *)
Lemma boptions_taken (environ : gmap string string) (v : string) :
  environ !! "SCRIPT_NAME" = Some v →
  v = "Carla" ∨ v = "Carla-Control" →
  boptions environ =
  Ok (<["custom_info_plist" := PyStr ("./data/macos/" ++ v ++ "_Info.plist")]>
        {[ "iconfile" := PyStr "./resources/ico/carla.icns" ]}).
Proof.
  intros Hv Hname. unfold boptions.
  assert (Hin : py_in (SCRIPT_NAME environ)
                  [PyStr "Carla"; PyStr "Carla-Control"] = true).
  { apply py_in_names. destruct Hname as [->| ->]; auto. }
  rewrite Hin, (SCRIPT_NAME_set _ _ Hv).
  change "./data/macos/%s_Info.plist"
    with ("./data/macos/" ++ "%s" ++ "_Info.plist").
  rewrite (py_mod_one_s "./data/macos/" "_Info.plist" (PyStr v) eq_refl eq_refl).
  reflexivity.
Qed.

(** The branch skipped: the literal is left as it is. *)
Lemma boptions_skipped (environ : gmap string string) :
  environ !! "SCRIPT_NAME" ≠ Some "Carla" →
  environ !! "SCRIPT_NAME" ≠ Some "Carla-Control" →
  boptions environ = Ok {[ "iconfile" := PyStr "./resources/ico/carla.icns" ]}.
Proof.
  intros H1 H2. unfold boptions.
  destruct (py_in (SCRIPT_NAME environ) _) eqn:Hin; [|reflexivity].
  apply py_in_names in Hin as [?|?]; contradiction.
Qed.

(** [boptions] is always built, and the branch only ever adds to it. *)
Lemma boptions_Ok (environ : gmap string string) :
  ∃ b, boptions environ = Ok b ∧
       b !! "iconfile" = Some (PyStr "./resources/ico/carla.icns") ∧
       dom b ⊆ {[ "iconfile"; "custom_info_plist" ]} ∧
       (is_Some (b !! "custom_info_plist") ↔
        environ !! "SCRIPT_NAME" = Some "Carla" ∨
        environ !! "SCRIPT_NAME" = Some "Carla-Control").
Proof.
  destruct (decide (environ !! "SCRIPT_NAME" = Some "Carla")) as [H1|H1];
    [|destruct (decide (environ !! "SCRIPT_NAME" = Some "Carla-Control"))
        as [H2|H2]].
  - eexists. split; [apply (boptions_taken _ "Carla"); auto|].
    split; [reflexivity|]. split; [set_solver|].
    split; [auto|]. intros _. eexists. reflexivity.
  - eexists. split; [apply (boptions_taken _ "Carla-Control"); auto|].
    split; [reflexivity|]. split; [set_solver|].
    split; [auto|]. intros _. eexists. reflexivity.
  - eexists. split; [apply boptions_skipped; assumption|].
    split; [reflexivity|]. split; [set_solver|].
    split; [intros [x Hx]; discriminate Hx | intros [?|?]; contradiction].
Qed.

Lemma SCRIPT_NAME_PyStr (environ : gmap string string) (v : string) :
  SCRIPT_NAME environ = PyStr v ↔ environ !! "SCRIPT_NAME" = Some v.
Proof.
  split; [|apply SCRIPT_NAME_set].
  unfold SCRIPT_NAME, getenv.
  destruct (environ !! "SCRIPT_NAME"); [intros [= ->]; reflexivity | discriminate].
Qed.

(** ** The arguments of the [setup] call *)

Section Arguments_of_setup.

Variable VERSION : pyval.

(** The call is always reached, with [boptions] as the branch left it. *)
Lemma setup_args_Ok (environ : gmap string string) (b : gmap string pyval) :
  boptions environ = Ok b →
  setup_args VERSION environ =
  Ok {| kw_name := "Carla";
        kw_version := VERSION;
        kw_description := "Carla Plugin Host";
        kw_options := {[ "build_exe" := options; "bdist_mac" := b ]};
        kw_executables :=
          [Executable
             ("./source/frontend/" ++
              match environ !! "SCRIPT_NAME" with
              | Some v => v
              | None => "None"
              end ++ ".pyw")] |}.
Proof.
  intros Hb. unfold setup_args.
  rewrite Hb, result_bind_Ok, script_path. reflexivity.
Qed.

Lemma lookup_build_exe (o b : gmap string pyval) :
  ({[ "build_exe" := o; "bdist_mac" := b ]} : gmap string (gmap string pyval))
    !! "build_exe" = Some o.
Proof. apply lookup_insert_eq. Qed.

Lemma lookup_bdist_mac (o b : gmap string pyval) :
  ({[ "build_exe" := o; "bdist_mac" := b ]} : gmap string (gmap string pyval))
    !! "bdist_mac" = Some b.
Proof. rewrite lookup_insert_ne by done. apply lookup_singleton_eq. Qed.

(** C1: when the environment variable SCRIPT_NAME has a value, the only
    element of the executables list given to setup is the Executable of
    "./source/frontend/" followed by that value followed by ".pyw". *)
Theorem executable_path_of_SCRIPT_NAME
  (environ : gmap string string) (v : string) :
  environ !! "SCRIPT_NAME" = Some v →
  ∃ kw, setup_args VERSION environ = Ok kw ∧
        kw_executables kw = [Executable ("./source/frontend/" ++ v ++ ".pyw")].
Proof.
  intros Hv. destruct (boptions_Ok environ) as (b & Hb & _).
  eexists. split; [apply (setup_args_Ok _ _ Hb)|].
  cbn [kw_executables]. rewrite Hv. reflexivity.
Qed.

(** C4: when SCRIPT_NAME is neither "Carla" nor "Carla-Control" (the unset
    case included), the branch is skipped without an error and the
    boptions mapping given to setup has no "custom_info_plist" key. *)
Theorem no_custom_info_plist_for_other_names (environ : gmap string string) :
  SCRIPT_NAME environ ≠ PyStr "Carla" →
  SCRIPT_NAME environ ≠ PyStr "Carla-Control" →
  ∃ kw b, boptions environ = Ok b ∧
          setup_args VERSION environ = Ok kw ∧
          kw_options kw !! "bdist_mac" = Some b ∧
          b !! "custom_info_plist" = None.
Proof.
  intros H1 H2.
  assert (Hb : boptions environ =
               Ok {[ "iconfile" := PyStr "./resources/ico/carla.icns" ]}).
  { apply boptions_skipped; intros H; [apply H1 | apply H2];
      apply SCRIPT_NAME_PyStr, H. }
  eexists _, _. split; [exact Hb|].
  split; [apply (setup_args_Ok _ _ Hb)|].
  split; [apply lookup_bdist_mac | reflexivity].
Qed.

(** C5: whatever SCRIPT_NAME is, the boptions mapping, after the branch
    and as given to setup, maps "iconfile" to
    "./resources/ico/carla.icns". *)
Theorem iconfile_always (environ : gmap string string) :
  ∃ kw b, boptions environ = Ok b ∧
          setup_args VERSION environ = Ok kw ∧
          kw_options kw !! "bdist_mac" = Some b ∧
          b !! "iconfile" = Some (PyStr "./resources/ico/carla.icns").
Proof.
  destruct (boptions_Ok environ) as (b & Hb & Hicon & _).
  eexists _, b. split; [exact Hb|].
  split; [apply (setup_args_Ok _ _ Hb)|].
  split; [apply lookup_bdist_mac | exact Hicon].
Qed.

(** C6: the mapping given to setup under "build_exe" is the same in any
    two runs, whatever the two environments hold: it is the options
    literal, with its four entries. *)
Theorem build_exe_options_static (environ1 environ2 : gmap string string) :
  ∃ kw1 kw2,
    setup_args VERSION environ1 = Ok kw1 ∧
    setup_args VERSION environ2 = Ok kw2 ∧
    kw_options kw1 !! "build_exe" = kw_options kw2 !! "build_exe" ∧
    kw_options kw1 !! "build_exe" = Some options ∧
    options !! "zip_include_packages" = Some (PyList [PyStr "*"]) ∧
    options !! "zip_exclude_packages" = Some (PyList [PyStr "PyQt5"]) ∧
    options !! "replace_paths" =
      Some (PyList [PyList [PyStr "*"; PyStr "@executable_path/"]]) ∧
    options !! "optimize" = Some (PyBool true) ∧
    size options = 4.
Proof.
  destruct (boptions_Ok environ1) as (b1 & Hb1 & _).
  destruct (boptions_Ok environ2) as (b2 & Hb2 & _).
  eexists _, _. split; [apply (setup_args_Ok _ _ Hb1)|].
  split; [apply (setup_args_Ok _ _ Hb2)|].
  cbn [kw_options]. rewrite !lookup_build_exe.
  repeat split; reflexivity.
Qed.

(** C7: whatever SCRIPT_NAME is, the name given to setup is "Carla" and
    the version given is VERSION. *)
Theorem name_and_version_fixed (environ : gmap string string) :
  ∃ kw, setup_args VERSION environ = Ok kw ∧
        kw_name kw = "Carla" ∧ kw_version kw = VERSION.
Proof.
  destruct (boptions_Ok environ) as (b & Hb & _).
  eexists. split; [apply (setup_args_Ok _ _ Hb)|].
  split; reflexivity.
Qed.

(** C9: when SCRIPT_NAME is unset, getenv gives None, formatting renders
    it as "None", the executable given to setup is
    "./source/frontend/None.pyw", no "custom_info_plist" key is set and
    no error is raised. *)
Theorem unset_SCRIPT_NAME_renders_None (environ : gmap string string) :
  environ !! "SCRIPT_NAME" = None →
  SCRIPT_NAME environ = PyNone ∧
  py_str (SCRIPT_NAME environ) = Ok "None" ∧
  ∃ kw b, setup_args VERSION environ = Ok kw ∧
          kw_executables kw = [Executable "./source/frontend/None.pyw"] ∧
          kw_options kw !! "bdist_mac" = Some b ∧
          b !! "custom_info_plist" = None.
Proof.
  intros Hunset. rewrite (SCRIPT_NAME_unset _ Hunset).
  split; [reflexivity|]. split; [reflexivity|].
  assert (Hb : boptions environ =
               Ok {[ "iconfile" := PyStr "./resources/ico/carla.icns" ]}).
  { apply boptions_skipped; rewrite Hunset; discriminate. }
  eexists _, _. split; [apply (setup_args_Ok _ _ Hb)|].
  cbn [kw_executables kw_options]. rewrite Hunset.
  split; [reflexivity|]. split; [apply lookup_bdist_mac | reflexivity].
Qed.

(** C10: whatever SCRIPT_NAME is, the executables list given to setup has
    exactly one entry, and the final boptions has at most two keys:
    "iconfile" always, and "custom_info_plist" exactly when SCRIPT_NAME is
    "Carla" or "Carla-Control". *)
Theorem one_executable_and_boptions_keys (environ : gmap string string) :
  ∃ kw b, boptions environ = Ok b ∧
          setup_args VERSION environ = Ok kw ∧
          length (kw_executables kw) = 1 ∧
          kw_options kw !! "bdist_mac" = Some b ∧
          dom b ⊆ {[ "iconfile"; "custom_info_plist" ]} ∧
          (size b ≤ 2)%nat ∧
          "iconfile" ∈ dom b ∧
          ("custom_info_plist" ∈ dom b ↔
           SCRIPT_NAME environ = PyStr "Carla" ∨
           SCRIPT_NAME environ = PyStr "Carla-Control").
Proof.
  destruct (boptions_Ok environ) as (b & Hb & Hicon & Hdom & Hplist).
  eexists _, b. split; [exact Hb|].
  split; [apply (setup_args_Ok _ _ Hb)|].
  split; [reflexivity|]. split; [apply lookup_bdist_mac|].
  split; [exact Hdom|]. split.
  - rewrite <- size_dom.
    etrans; [apply (subseteq_size _ _ Hdom)|].
    rewrite size_union, !size_singleton by set_solver. done.
  - split; [apply elem_of_dom; rewrite Hicon; eauto|].
    rewrite elem_of_dom, Hplist, !SCRIPT_NAME_PyStr. reflexivity.
Qed.

(** C8: the script does not validate SCRIPT_NAME.  Whatever the
    environment holds, everything before the setup call evaluates without
    an error, and the run ends the way the call to the packaging tool
    ends. *)
Theorem no_validation_before_setup
  (setup : setup_kwargs → result ()) (environ : gmap string string) :
  ∃ kw, setup_args VERSION environ = Ok kw ∧
        bundle VERSION setup environ = setup kw.
Proof.
  destruct (boptions_Ok environ) as (b & Hb & _).
  eexists. split; [apply (setup_args_Ok _ _ Hb)|].
  unfold bundle. rewrite (setup_args_Ok _ _ Hb). reflexivity.
Qed.

End Arguments_of_setup.

(** C2: if SCRIPT_NAME is "Carla", boptions after the branch maps
    "custom_info_plist" to "./data/macos/Carla_Info.plist". *)
Theorem custom_info_plist_Carla (environ : gmap string string) :
  SCRIPT_NAME environ = PyStr "Carla" →
  ∃ b, boptions environ = Ok b ∧
       b !! "custom_info_plist" = Some (PyStr "./data/macos/Carla_Info.plist").
Proof.
  intros H. apply SCRIPT_NAME_PyStr in H.
  eexists. split; [apply (boptions_taken _ _ H); auto|].
  apply lookup_insert_eq.
Qed.

(** C3: if SCRIPT_NAME is "Carla-Control", boptions after the branch maps
    "custom_info_plist" to "./data/macos/Carla-Control_Info.plist". *)
Theorem custom_info_plist_Carla_Control (environ : gmap string string) :
  SCRIPT_NAME environ = PyStr "Carla-Control" →
  ∃ b, boptions environ = Ok b ∧
       b !! "custom_info_plist" =
         Some (PyStr "./data/macos/Carla-Control_Info.plist").
Proof.
  intros H. apply SCRIPT_NAME_PyStr in H.
  eexists. split; [apply (boptions_taken _ _ H); auto|].
  apply lookup_insert_eq.
Qed.

(** ** What the environment can change *)



(** [getenv] gives [None] or a string, nothing else. *)
Lemma SCRIPT_NAME_cases (environ : gmap string string) :
  SCRIPT_NAME environ = PyNone ∨ ∃ v, SCRIPT_NAME environ = PyStr v.
Proof.
  unfold SCRIPT_NAME, getenv. destruct (environ !! "SCRIPT_NAME"); eauto.
Qed.

Lemma py_str_SCRIPT_NAME (environ : gmap string string) :
  py_str (SCRIPT_NAME environ) =
  Ok match environ !! "SCRIPT_NAME" with Some v => v | None => "None" end.
Proof.
  unfold SCRIPT_NAME, getenv. destruct (environ !! "SCRIPT_NAME"); reflexivity.
Qed.

(** Both the test of the [if] statement and the two [%] expressions see
    [SCRIPT_NAME] through its text only. *)
Lemma setup_args_by_str (VERSION : pyval) (environ1 environ2 : gmap string string) :
  py_str (SCRIPT_NAME environ1) = py_str (SCRIPT_NAME environ2) →
  setup_args VERSION environ1 = setup_args VERSION environ2.
Proof.
  unfold setup_args, boptions.
  destruct (SCRIPT_NAME_cases environ1) as [->|[v1 ->]],
           (SCRIPT_NAME_cases environ2) as [->|[v2 ->]];
    cbn [py_str]; intros Heq.
  - reflexivity.
  - injection Heq as <-. reflexivity.
  - injection Heq as ->. reflexivity.
  - injection Heq as ->. reflexivity.
Qed.


Section Environment.

Variable VERSION : pyval.


(** X2: a run with SCRIPT_NAME unset is the run with SCRIPT_NAME set to the
    four letters "None": the script cannot tell the two apart. *)
Theorem unset_is_the_value_None (environ : gmap string string) :
  environ !! "SCRIPT_NAME" = None →
  setup_args VERSION environ =
  setup_args VERSION (<["SCRIPT_NAME" := "None"]> environ).
Proof.
  intros Hunset. apply setup_args_by_str.
  rewrite !py_str_SCRIPT_NAME, Hunset, lookup_insert_eq. reflexivity.
Qed.


(** X4: a "custom_info_plist" entry given to setup is one of two paths
    only, and it names the same frontend as the executable of that run. *)
Theorem custom_info_plist_matches_executable
  (environ : gmap string string) (kw : setup_kwargs)
  (b : gmap string pyval) (p : pyval) :
  setup_args VERSION environ = Ok kw →
  kw_options kw !! "bdist_mac" = Some b →
  b !! "custom_info_plist" = Some p →
  (p = PyStr "./data/macos/Carla_Info.plist" ∧
   kw_executables kw = [Executable "./source/frontend/Carla.pyw"]) ∨
  (p = PyStr "./data/macos/Carla-Control_Info.plist" ∧
   kw_executables kw = [Executable "./source/frontend/Carla-Control.pyw"]).
Proof.
  intros Hkw Hb Hp.
  destruct (decide (environ !! "SCRIPT_NAME" = Some "Carla")) as [H1|H1];
    [|destruct (decide (environ !! "SCRIPT_NAME" = Some "Carla-Control"))
        as [H2|H2]].
  - rewrite (setup_args_Ok VERSION _ _
               (boptions_taken _ "Carla" H1 (or_introl eq_refl))) in Hkw.
    injection Hkw as <-. cbn [kw_options kw_executables] in *.
    rewrite lookup_bdist_mac in Hb. injection Hb as <-.
    rewrite lookup_insert_eq in Hp. injection Hp as <-.
    left. rewrite H1. split; reflexivity.
  - rewrite (setup_args_Ok VERSION _ _
               (boptions_taken _ "Carla-Control" H2 (or_intror eq_refl))) in Hkw.
    injection Hkw as <-. cbn [kw_options kw_executables] in *.
    rewrite lookup_bdist_mac in Hb. injection Hb as <-.
    rewrite lookup_insert_eq in Hp. injection Hp as <-.
    right. rewrite H2. split; reflexivity.
  - rewrite (setup_args_Ok VERSION _ _ (boptions_skipped _ H1 H2)) in Hkw.
    injection Hkw as <-. cbn [kw_options] in Hb.
    rewrite lookup_bdist_mac in Hb. injection Hb as <-.
    discriminate Hp.
Qed.

(** X5: the environment reaches two places of the setup call only.  Any two
    runs agree on name, version and description ("Carla Plugin Host"), on
    every entry of options other than "bdist_mac", and inside "bdist_mac"
    on every key other than "custom_info_plist"; what is left to differ is
    that key and the executables list. *)
Theorem environment_reaches_plist_and_executables_only
  (environ1 environ2 : gmap string string) :
  ∃ kw1 kw2 b1 b2,
    setup_args VERSION environ1 = Ok kw1 ∧
    setup_args VERSION environ2 = Ok kw2 ∧
    kw_options kw1 !! "bdist_mac" = Some b1 ∧
    kw_options kw2 !! "bdist_mac" = Some b2 ∧
    kw_name kw1 = kw_name kw2 ∧
    kw_version kw1 = kw_version kw2 ∧
    kw_description kw1 = "Carla Plugin Host" ∧
    kw_description kw2 = "Carla Plugin Host" ∧
    (∀ key, key ≠ "bdist_mac" →
            kw_options kw1 !! key = kw_options kw2 !! key) ∧
    (∀ key, key ≠ "custom_info_plist" → b1 !! key = b2 !! key).
Proof.
  destruct (boptions_Ok environ1) as (b1 & Hb1 & Hicon1 & Hdom1 & _).
  destruct (boptions_Ok environ2) as (b2 & Hb2 & Hicon2 & Hdom2 & _).
  eexists _, _, b1, b2.
  split; [apply (setup_args_Ok _ _ _ Hb1)|].
  split; [apply (setup_args_Ok _ _ _ Hb2)|].
  split; [apply lookup_bdist_mac|]. split; [apply lookup_bdist_mac|].
  do 4 (split; [reflexivity|]). cbn [kw_options]. split.
  - intros key Hkey.
    destruct (decide (key = "build_exe")) as [->|Hne].
    + rewrite !lookup_build_exe. reflexivity.
    + rewrite !lookup_insert_ne, !lookup_singleton_ne by done. reflexivity.
  - intros key Hkey.
    destruct (decide (key = "iconfile")) as [->|Hne].
    + rewrite Hicon1, Hicon2. reflexivity.
    + assert (Hout : ∀ b : gmap string pyval,
                 dom b ⊆ {[ "iconfile"; "custom_info_plist" ]} → b !! key = None).
      { intros b Hdom. apply not_elem_of_dom. intros Hin%Hdom.
        apply elem_of_union in Hin as [Hin|Hin];
          apply elem_of_singleton in Hin; contradiction. }
      rewrite (Hout b1 Hdom1), (Hout b2 Hdom2). reflexivity.
Qed.

End Environment.

(** ** The theorems at concrete environments *)

Lemma executable_path_of_SCRIPT_NAME_witness :
  ({[ "SCRIPT_NAME" := "Carla-Control"; "HOME" := "/Users/build" ]}
     : gmap string string) !! "SCRIPT_NAME" = Some "Carla-Control" ∧
  ∃ kw,
    setup_args (PyStr "2.1")
      {[ "SCRIPT_NAME" := "Carla-Control"; "HOME" := "/Users/build" ]} = Ok kw ∧
    kw_executables kw = [Executable "./source/frontend/Carla-Control.pyw"].
Proof.
  split; [reflexivity|].
  apply (executable_path_of_SCRIPT_NAME (PyStr "2.1") _ "Carla-Control").
  reflexivity.
Defined.

Lemma custom_info_plist_Carla_witness :
  SCRIPT_NAME {[ "SCRIPT_NAME" := "Carla" ]} = PyStr "Carla" ∧
  ∃ b, boptions {[ "SCRIPT_NAME" := "Carla" ]} = Ok b ∧
       b !! "custom_info_plist" = Some (PyStr "./data/macos/Carla_Info.plist").
Proof.
  split; [reflexivity|].
  apply (custom_info_plist_Carla {[ "SCRIPT_NAME" := "Carla" ]}).
  reflexivity.
Defined.

Lemma custom_info_plist_Carla_Control_witness :
  SCRIPT_NAME {[ "SCRIPT_NAME" := "Carla-Control" ]} = PyStr "Carla-Control" ∧
  ∃ b, boptions {[ "SCRIPT_NAME" := "Carla-Control" ]} = Ok b ∧
       b !! "custom_info_plist" =
         Some (PyStr "./data/macos/Carla-Control_Info.plist").
Proof.
  split; [reflexivity|].
  apply (custom_info_plist_Carla_Control {[ "SCRIPT_NAME" := "Carla-Control" ]}).
  reflexivity.
Defined.

Lemma no_custom_info_plist_for_other_names_witness :
  SCRIPT_NAME {[ "SCRIPT_NAME" := "carla" ]} ≠ PyStr "Carla" ∧
  SCRIPT_NAME {[ "SCRIPT_NAME" := "carla" ]} ≠ PyStr "Carla-Control" ∧
  ∃ kw b, boptions {[ "SCRIPT_NAME" := "carla" ]} = Ok b ∧
          setup_args (PyStr "2.1") {[ "SCRIPT_NAME" := "carla" ]} = Ok kw ∧
          kw_options kw !! "bdist_mac" = Some b ∧
          b !! "custom_info_plist" = None.
Proof.
  split; [vm_compute; discriminate|].
  split; [vm_compute; discriminate|].
  apply (no_custom_info_plist_for_other_names
           (PyStr "2.1") {[ "SCRIPT_NAME" := "carla" ]});
    vm_compute; discriminate.
Defined.

Lemma unset_SCRIPT_NAME_renders_None_witness :
  (∅ : gmap string string) !! "SCRIPT_NAME" = None ∧
  SCRIPT_NAME ∅ = PyNone ∧
  py_str (SCRIPT_NAME ∅) = Ok "None" ∧
  ∃ kw b, setup_args (PyStr "2.1") ∅ = Ok kw ∧
          kw_executables kw = [Executable "./source/frontend/None.pyw"] ∧
          kw_options kw !! "bdist_mac" = Some b ∧
          b !! "custom_info_plist" = None.
Proof.
  split; [reflexivity|].
  apply (unset_SCRIPT_NAME_renders_None (PyStr "2.1") ∅).
  reflexivity.
Defined.


Lemma unset_is_the_value_None_witness :
  ({[ "HOME" := "/Users/build" ]} : gmap string string) !! "SCRIPT_NAME" = None ∧
  setup_args (PyStr "2.1") {[ "HOME" := "/Users/build" ]} =
  setup_args (PyStr "2.1")
    (<["SCRIPT_NAME" := "None"]> {[ "HOME" := "/Users/build" ]}).
Proof.
  split; [reflexivity|].
  apply (unset_is_the_value_None (PyStr "2.1") {[ "HOME" := "/Users/build" ]}).
  reflexivity.
Defined.


Lemma custom_info_plist_matches_executable_witness :
  setup_args (PyStr "2.1") {[ "SCRIPT_NAME" := "Carla-Control" ]} =
  Ok {| kw_name := "Carla";
        kw_version := PyStr "2.1";
        kw_description := "Carla Plugin Host";
        kw_options :=
          {[ "build_exe" := options;
             "bdist_mac" :=
               <["custom_info_plist" :=
                   PyStr "./data/macos/Carla-Control_Info.plist"]>
                 {[ "iconfile" := PyStr "./resources/ico/carla.icns" ]} ]};
        kw_executables := [Executable "./source/frontend/Carla-Control.pyw"] |} ∧
  ((PyStr "./data/macos/Carla-Control_Info.plist" =
      PyStr "./data/macos/Carla_Info.plist" ∧
    [Executable "./source/frontend/Carla-Control.pyw"] =
      [Executable "./source/frontend/Carla.pyw"]) ∨
   (PyStr "./data/macos/Carla-Control_Info.plist" =
      PyStr "./data/macos/Carla-Control_Info.plist" ∧
    [Executable "./source/frontend/Carla-Control.pyw"] =
      [Executable "./source/frontend/Carla-Control.pyw"])).
Proof.
  split; [reflexivity|].
  apply (custom_info_plist_matches_executable (PyStr "2.1")
           {[ "SCRIPT_NAME" := "Carla-Control" ]}
           {| kw_name := "Carla";
              kw_version := PyStr "2.1";
              kw_description := "Carla Plugin Host";
              kw_options :=
                {[ "build_exe" := options;
                   "bdist_mac" :=
                     <["custom_info_plist" :=
                         PyStr "./data/macos/Carla-Control_Info.plist"]>
                       {[ "iconfile" := PyStr "./resources/ico/carla.icns" ]} ]};
              kw_executables :=
                [Executable "./source/frontend/Carla-Control.pyw"] |}
           (<["custom_info_plist" :=
                PyStr "./data/macos/Carla-Control_Info.plist"]>
              {[ "iconfile" := PyStr "./resources/ico/carla.icns" ]})
           (PyStr "./data/macos/Carla-Control_Info.plist"));
    reflexivity.
Defined.

(** ** The operators on small inputs *)

Example py_mod_str (v : string) :
  py_mod "./source/frontend/%s.pyw" (PyStr v) =
  Ok ("./source/frontend/" ++ v ++ ".pyw").
Proof. reflexivity. Qed.

Example py_mod_None :
  py_mod "./data/macos/%s_Info.plist" PyNone = Ok "./data/macos/None_Info.plist".
Proof. reflexivity. Qed.

Example py_mod_unused_argument :
  py_mod "carla.icns" PyNone =
  Raise (TypeError "not all arguments converted during string formatting").
Proof. reflexivity. Qed.

Example py_mod_missing_argument :
  py_mod "%s_%s" (PyStr "Carla") =
  Raise (TypeError "not enough arguments for format string").
Proof. reflexivity. Qed.

Example py_mod_unused_list :
  py_mod "carla.icns" (PyList [PyStr "*"]) = Ok "carla.icns".
Proof. reflexivity. Qed.

Example py_mod_incomplete :
  py_mod "%s.pyw%" (PyStr "Carla") = Raise (ValueError "incomplete format").
Proof. reflexivity. Qed.

Example py_mod_percent_literal :
  py_mod "100%% %s" (PyStr "Carla") = Ok "100% Carla".
Proof. reflexivity. Qed.

Example py_in_is_case_sensitive :
  py_in (PyStr "carla") [PyStr "Carla"; PyStr "Carla-Control"] = false.
Proof. reflexivity. Qed.

Example py_in_None :
  py_in PyNone [PyStr "Carla"; PyStr "Carla-Control"] = false.
Proof. reflexivity. Qed.

Example getenv_set :
  getenv {[ "SCRIPT_NAME" := "Carla" ]} "SCRIPT_NAME" = PyStr "Carla".
Proof. reflexivity. Qed.

Example getenv_unset :
  getenv {[ "HOME" := "/Users/build" ]} "SCRIPT_NAME" = PyNone.
Proof. reflexivity. Qed.
